(** * The questionnaire tracker of [backend/src/agent.py]

    A shallow embedding of [Assistant.extract_number], [Assistant.next_question]
    and [Assistant.on_message], with the Python built-ins they call.

    Text is a [string] whose characters are the code points U+0000..U+00FF,
    one [ascii] per code point.  On that range [str.lower], [str.isdigit],
    [str.isspace] and [int] are tabulated below as CPython defines them; code
    points above U+00FF are outside the model, and no statement below rests on
    [str.lower] keeping the length of a text, which holds on this range only.
    The interpreter's limit on the number of digits in a conversion between
    [int] and [str], 4300 by default and never changed by the program, is
    part of [int] and [str]. *)

From Stdlib Require Import ZArith List String Ascii Bool Lia.
From Stdlib Require Import DecimalString DecimalFacts DecimalPos.
Import ListNotations.

Local Open Scope string_scope.
Local Open Scope Z_scope.

(** ** Python built-ins on characters *)

Module Py.

Definition ord (c : ascii) : N := N_of_ascii c.

Definition in_range (lo hi : N) (c : ascii) : bool :=
  (N.leb lo (ord c) && N.leb (ord c) hi)%bool.

(** [str.isdecimal]: Numeric_Type=Decimal; below U+0100 these are 0..9. *)
Definition isdecimal (c : ascii) : bool := in_range 48 57 c.

(** [str.isdigit]: Numeric_Type=Digit or Decimal; below U+0100 these are 0..9
    and the superscripts U+00B2, U+00B3 and U+00B9. *)
Definition isdigit (c : ascii) : bool :=
  (isdecimal c || N.eqb (ord c) 178 || N.eqb (ord c) 179 || N.eqb (ord c) 185)%bool.

(** [str.isspace]: below U+0100 these are U+0009..U+000D, U+001C..U+0020,
    U+0085 and U+00A0. *)
Definition isspace (c : ascii) : bool :=
  (in_range 9 13 c || in_range 28 32 c || N.eqb (ord c) 133 || N.eqb (ord c) 160)%bool.

(** [str.lower] on one character: A..Z, and U+00C0..U+00DE except the
    multiplication sign U+00D7, move up by 32. *)
Definition lower_char (c : ascii) : ascii :=
  if (in_range 65 90 c || in_range 192 214 c || in_range 216 222 c)%bool
  then ascii_of_N (ord c + 32)
  else c.

(** ** Python built-ins on strings *)

(** [s.lower()]; on the code points of the model it works character by
    character. *)
Fixpoint lower (s : string) : string :=
  match s with
  | EmptyString => EmptyString
  | String c s' => String (lower_char c) (lower s')
  end.

(** [''.join(filter(p, s))] *)
Fixpoint join_filter (p : ascii -> bool) (s : string) : string :=
  match s with
  | EmptyString => EmptyString
  | String c s' => if p c then String c (join_filter p s') else join_filter p s'
  end.

Fixpoint lstrip (s : string) : string :=
  match s with
  | EmptyString => EmptyString
  | String c s' => if isspace c then lstrip s' else s
  end.

Fixpoint rstrip (s : string) : string :=
  match s with
  | EmptyString => EmptyString
  | String c s' =>
      match rstrip s' with
      | EmptyString => if isspace c then EmptyString else String c EmptyString
      | r => String c r
      end
  end.

(** [s.strip()] *)
Definition strip (s : string) : string := rstrip (lstrip s).

(** [s.startswith(p)] *)
Fixpoint startswith (p s : string) : bool :=
  match p, s with
  | EmptyString, _ => true
  | String _ _, EmptyString => false
  | String a p', String b s' => (Ascii.eqb a b && startswith p' s')%bool
  end.

(** [p in s] *)
Fixpoint contains (p s : string) : bool :=
  (startswith p s ||
   match s with
   | EmptyString => false
   | String _ s' => contains p s'
   end)%bool.

(** [s.replace(old, new)] for a non-empty [old]: occurrences are replaced from
    left to right without overlap.  [skip] counts the characters of a matched
    occurrence that are still to be passed over. *)
Fixpoint replace_from (skip : nat) (old new s : string) : string :=
  match s with
  | EmptyString => EmptyString
  | String c s' =>
      match skip with
      | S k => replace_from k old new s'
      | O =>
          if startswith old s
          then new ++ replace_from (Nat.pred (String.length old)) old new s'
          else String c (replace_from O old new s')
      end
  end.

Definition replace (old new s : string) : string := replace_from O old new s.

(** Exceptions, and results of calls that may raise. *)
Inductive exn : Set := ValueError.

Inductive result (A : Type) : Type :=
| Ok (a : A)
| Raise (e : exn).
Arguments Ok {A} a.
Arguments Raise {A} e.

(** What a call that returned is put into; an exception passes through. *)
Definition map_ok {A B : Type} (f : A -> B) (r : result A) : result B :=
  match r with
  | Ok a => Ok (f a)
  | Raise e => Raise e
  end.

(** [sys.get_int_max_str_digits()], the interpreter's default. *)
Definition int_max_str_digits : Z := 4300.

(** The text has more digits than a conversion accepts. *)
Definition over_limit (digits : string) : bool :=
  int_max_str_digits <? Z.of_nat (String.length digits).

(** The decimal numeral of an integer, with "-" before it when negative. *)
Definition numeral (n : Z) : string := NilZero.string_of_int (Z.to_int n).

(** [str(n)] for an [int], which is also what an f-string field gives for
    it: the numeral of [n], unless [n] has more digits than the limit, the
    sign not counted. *)
Definition str (n : Z) : result string :=
  if over_limit (numeral (Z.abs n)) then Raise ValueError else Ok (numeral n).

Definition digit_value (c : ascii) : Z := Z.of_N (ord c) - 48.

(** The base-10 digits read so far are worth [acc]. *)
Fixpoint int_from (acc : Z) (s : string) : result Z :=
  match s with
  | EmptyString => Ok acc
  | String c s' =>
      if isdecimal c then int_from (10 * acc + digit_value c) s'
      else Raise ValueError
  end.

(** [int(s)] on the strings [extract_number] passes to it, which hold
    [isdigit] characters only: the literal must be non-empty, have no more
    digits than the limit (leading zeros counted), and every character must
    be a decimal digit; otherwise [ValueError] is raised.  (Signs, blanks and
    underscores, which [int] also reads, never reach it.) *)
Definition int (s : string) : result Z :=
  match s with
  | EmptyString => Raise ValueError
  | _ => if over_limit s then Raise ValueError else int_from 0 s
  end.

End Py.

Import Py.

(** ** The assistant's data *)

(** [self.current_step]: the code only ever stores these five literals. *)
Inductive Step : Set := Mood | Water | Sleep | Steps | Done.

(** [self.state], the session memory. *)
Record State : Set := mkState {
  mood : option string;
  water : Z;
  sleep : option Z;
  steps : Z
}.

Record Assistant : Set := mkAssistant {
  state : State;
  current_step : Step
}.

(** [Assistant.__init__] *)
Definition init : Assistant :=
  {| state := {| mood := None; water := 0; sleep := None; steps := 0 |};
     current_step := Mood |}.

Definition set_mood (m : string) (st : State) : State :=
  {| mood := Some m; water := water st; sleep := sleep st; steps := steps st |}.

Definition add_water (n : Z) (st : State) : State :=
  {| mood := mood st; water := water st + n; sleep := sleep st; steps := steps st |}.

Definition set_sleep (n : Z) (st : State) : State :=
  {| mood := mood st; water := water st; sleep := Some n; steps := steps st |}.

Definition add_steps (n : Z) (st : State) : State :=
  {| mood := mood st; water := water st; sleep := sleep st; steps := steps st + n |}.

(** ** The assistant's methods *)

(** [extract_number]: [None] is Python's [None]; [Raise] is an exception
    leaving the method. *)
Definition extract_number (text : string) : result (option Z) :=
  let digits := join_filter isdigit text in
  match digits with
  | EmptyString => Ok None
  | _ =>
      match int digits with
      | Ok n => Ok (Some n)
      | Raise e => Raise e
      end
  end.

Definition next_question (self : Assistant) : string :=
  match current_step self with
  | Mood => "How are you feeling today?"
  | Water => "How much water have you had today?"
  | Sleep => "How many hours did you sleep last night?"
  | Steps => "How many steps have you walked today?"
  | Done => "Great job! Let me know if you want to update anything."
  end.

(** The text sent once all four questions are answered. *)
Definition closing : string :=
  "You're all set! Tell me if you want to update anything.".

(** [on_message]: the assistant after the call, paired with the text handed
    to [ctx.send_response], or with the exception that left the call.  Two
    calls can raise: [extract_number], which comes before any assignment to
    [self], and the formatting of a number in the response, which comes after
    the record and the step were assigned. *)
Definition on_message (self : Assistant) (text : string)
  : Assistant * result string :=
  let user_text := lower text in
  match current_step self with
  | Mood =>
      if (contains "feeling" user_text || contains "mood" user_text
          || negb (String.eqb (strip user_text) ""))%bool
      then
        let mood := strip (replace "feeling" "" user_text) in
        let self := {| state := set_mood mood (state self);
                       current_step := Water |} in
        (self, Ok ("Got it. You're feeling " ++ mood ++ ". "
                   ++ next_question self))
      else (self, Ok "How are you feeling today?")
  | Water =>
      match extract_number user_text with
      | Raise e => (self, Raise e)
      | Ok None => (self, Ok "How much water did you drink?")
      | Ok (Some amount) =>
          let self := {| state := add_water amount (state self);
                         current_step := Sleep |} in
          (self,
           map_ok (fun total => "Water updated: " ++ total ++ " ml. "
                                ++ next_question self)
                  (str (water (state self))))
      end
  | Sleep =>
      match extract_number user_text with
      | Raise e => (self, Raise e)
      | Ok None => (self, Ok "How many hours did you sleep?")
      | Ok (Some hours) =>
          let self := {| state := set_sleep hours (state self);
                         current_step := Steps |} in
          (self,
           map_ok (fun slept => "Noted. You slept " ++ slept ++ " hours. "
                                ++ next_question self)
                  (str hours))
      end
  | Steps =>
      match extract_number user_text with
      | Raise e => (self, Raise e)
      | Ok None => (self, Ok "How many steps did you walk?")
      | Ok (Some n) =>
          let self := {| state := add_steps n (state self);
                         current_step := Done |} in
          (self,
           map_ok (fun total => "Steps updated: " ++ total
                                ++ ". Great job today!")
                  (str (steps (state self))))
      end
  | Done => (self, Ok closing)
  end.

(** ** Sessions *)

(** The assistant after a sequence of utterances.  After an utterance whose
    handling raises, the session goes on with the next one, from the
    assistant as the raising call left it. *)
Definition run (self : Assistant) (texts : list string) : Assistant :=
  fold_left (fun a t => fst (on_message a t)) texts self.

(** The values of [current_step] a session passes through: the one it starts
    in, then the one after each utterance. *)
Fixpoint visited (self : Assistant) (texts : list string) : list Step :=
  current_step self ::
  match texts with
  | [] => []
  | t :: ts => visited (fst (on_message self t)) ts
  end.

(** What is sent back for each utterance of a session. *)
Fixpoint responses (self : Assistant) (texts : list string)
  : list (result string) :=
  match texts with
  | [] => []
  | t :: ts => snd (on_message self t) :: responses (fst (on_message self t)) ts
  end.

(** ** Vocabulary of the properties *)

(** The order in which the questions are asked. *)
Definition order : list Step := [Mood; Water; Sleep; Steps; Done].

Definition rank (s : Step) : nat :=
  match s with Mood => 0 | Water => 1 | Sleep => 2 | Steps => 3 | Done => 4 end.

Definition Step_eqb (a b : Step) : bool := Nat.eqb (rank a) (rank b).

(** No transition of the list goes back, and none jumps over a step. *)
Fixpoint advancing (l : list Step) : Prop :=
  match l with
  | [] => True
  | a :: tl =>
      match tl with
      | [] => True
      | b :: _ => (rank a <= rank b <= S (rank a))%nat /\ advancing tl
      end
  end.

(** The list with every run of one repeated step shrunk to a single entry. *)
Fixpoint squash (l : list Step) : list Step :=
  match l with
  | [] => []
  | a :: tl =>
      match tl with
      | [] => [a]
      | b :: _ => if Step_eqb a b then squash tl else a :: squash tl
      end
  end.

(** Every character of the text is white space (in particular, the text is
    empty). *)
Fixpoint blank (s : string) : bool :=
  match s with
  | EmptyString => true
  | String c s' => (isspace c && blank s')%bool
  end.

(** The decimal digits of a text read as one base-10 numeral, most
    significant first; [acc] is the value of those already read. *)
Fixpoint decimal_value (acc : Z) (s : string) : Z :=
  match s with
  | EmptyString => acc
  | String c s' =>
      if isdecimal c then decimal_value (10 * acc + digit_value c) s'
      else decimal_value acc s'
  end.

(** No character of the text is a digit for [str.isdigit] without being a
    decimal digit: the text holds none of the superscripts. *)
Fixpoint plain (s : string) : bool :=
  match s with
  | EmptyString => true
  | String c s' => (implb (isdigit c) (isdecimal c) && plain s')%bool
  end.

(** The number parsed by a call in the sleep step, if the call parses one. *)
Definition hours_parsed (self : Assistant) (text : string) : option Z :=
  match current_step self, extract_number (lower text) with
  | Sleep, Ok (Some hours) => Some hours
  | _, _ => None
  end.

(** The character U+00B2, SUPERSCRIPT TWO, as a one-character text. *)
Definition superscript_two : string := String "178"%char EmptyString.

(** The steps whose answer is read with [extract_number]. *)
Definition asks_number (s : Step) : bool :=
  match s with
  | Water | Sleep | Steps => true
  | Mood | Done => false
  end.

(** What the record holds at each step of a session begun by [init]: the
    fields of the questions already answered are set, the others still have
    their initial values. *)
Definition settled (a : Assistant) : Prop :=
  let st := state a in
  match current_step a with
  | Mood => mood st = None /\ water st = 0 /\ sleep st = None /\ steps st = 0
  | Water => mood st <> None /\ water st = 0 /\ sleep st = None /\ steps st = 0
  | Sleep =>
      mood st <> None /\ 0 <= water st /\ sleep st = None /\ steps st = 0
  | Steps =>
      mood st <> None /\ 0 <= water st
      /\ (exists hours, sleep st = Some hours /\ 0 <= hours) /\ steps st = 0
  | Done =>
      mood st <> None /\ 0 <= water st
      /\ (exists hours, sleep st = Some hours /\ 0 <= hours) /\ 0 <= steps st
  end.

(** Every character of the text passes the test. *)
Fixpoint all_chars (p : ascii -> bool) (s : string) : bool :=
  match s with
  | EmptyString => true
  | String c s' => (p c && all_chars p s')%bool
  end.

(** The first, respectively the last, character of the text is white space. *)
Definition starts_blank (s : string) : bool :=
  match s with
  | EmptyString => false
  | String c _ => isspace c
  end.

Fixpoint ends_blank (s : string) : bool :=
  match s with
  | EmptyString => false
  | String c s' =>
      match s' with
      | EmptyString => isspace c
      | String _ _ => ends_blank s'
      end
  end.

(** ** Facts about the built-ins *)

Section Characters.

(** Proves a statement about one character by evaluating it on all 256. *)
Ltac each_char c :=
  destruct c as [[] [] [] [] [] [] [] []]; vm_compute; try reflexivity; auto.

Lemma isspace_lower_char (c : ascii) : isspace (lower_char c) = isspace c.
Proof. each_char c. Qed.

Lemma isdigit_lower_char (c : ascii) : isdigit (lower_char c) = isdigit c.
Proof. each_char c. Qed.

Lemma lower_char_digit (c : ascii) : isdigit c = true -> lower_char c = c.
Proof. each_char c; discriminate. Qed.

Lemma isdecimal_isdigit (c : ascii) : isdecimal c = true -> isdigit c = true.
Proof. each_char c. Qed.

Lemma isdecimal_not_space (c : ascii) : isdecimal c = true -> isspace c = false.
Proof. each_char c. Qed.

Lemma digit_value_range (c : ascii) :
  isdecimal c = true -> 0 <= digit_value c <= 9.
Proof. each_char c; intros; try discriminate; split; discriminate. Qed.

End Characters.

Lemma join_filter_lower (s : string) :
  join_filter isdigit (lower s) = join_filter isdigit s.
Proof.
  induction s as [|c s IH]; simpl; [reflexivity|].
  rewrite isdigit_lower_char.
  destruct (isdigit c) eqn:E; [|exact IH].
  now rewrite (lower_char_digit c E), IH.
Qed.

Lemma blank_lower (s : string) : blank (lower s) = blank s.
Proof.
  induction s as [|c s IH]; simpl; [reflexivity|].
  now rewrite isspace_lower_char, IH.
Qed.

Lemma lstrip_head (s : string) :
  (blank s = true /\ lstrip s = "")
  \/ (blank s = false /\ exists c r, lstrip s = String c r /\ isspace c = false).
Proof.
  induction s as [|c s IH]; simpl; [now left|].
  destruct (isspace c) eqn:E; simpl; [exact IH|].
  right; split; [reflexivity|]. now exists c, s.
Qed.

Lemma rstrip_head (c : ascii) (r : string) :
  isspace c = false -> rstrip (String c r) <> "".
Proof.
  intros E; simpl. destruct (rstrip r); [rewrite E|]; discriminate.
Qed.

(** [s.strip() == ""] says that the text is blank. *)
Lemma strip_eqb_blank (s : string) : String.eqb (strip s) "" = blank s.
Proof.
  unfold strip.
  destruct (lstrip_head s) as [[B L]|[B (c & r & L & E)]]; rewrite L, B.
  - reflexivity.
  - apply String.eqb_neq, rstrip_head, E.
Qed.

Lemma strip_empty_iff (s : string) : strip s = "" <-> blank s = true.
Proof. rewrite <- strip_eqb_blank. symmetry; apply String.eqb_eq. Qed.

Lemma blank_contains (a : ascii) (p s : string) :
  isspace a = false -> blank s = true -> contains (String a p) s = false.
Proof.
  intros Ea; induction s as [|c s IH]; simpl; [reflexivity|].
  intros B; apply andb_true_iff in B as [Ec Bs].
  rewrite (IH Bs), orb_false_r.
  destruct (Ascii.eqb a c) eqn:E; [|reflexivity].
  apply Ascii.eqb_eq in E; congruence.
Qed.

(** The test of the mood branch comes down to its third clause. *)
Lemma mood_test (t : string) :
  (contains "feeling" t || contains "mood" t
   || negb (String.eqb (strip t) ""))%bool = negb (blank t).
Proof.
  rewrite strip_eqb_blank.
  destruct (blank t) eqn:B; simpl; [|apply orb_true_r].
  now rewrite !blank_contains.
Qed.

Lemma int_from_nonneg (s : string) :
  forall acc n, 0 <= acc -> int_from acc s = Ok n -> 0 <= n.
Proof.
  induction s as [|c s IH]; simpl; intros acc n Hacc H.
  - now inversion H; subst.
  - destruct (isdecimal c) eqn:E; [|discriminate].
    pose proof (digit_value_range c E).
    apply (IH (10 * acc + digit_value c)); [lia | exact H].
Qed.

(** A number that [extract_number] returns is never negative. *)
Lemma extract_number_nonneg (text : string) (n : Z) :
  extract_number text = Ok (Some n) -> 0 <= n.
Proof.
  unfold extract_number, int.
  destruct (join_filter isdigit text) as [|c s]; [discriminate|].
  destruct (over_limit (String c s)); [discriminate|].
  destruct (int_from 0 (String c s)) as [m|e] eqn:E; [|discriminate].
  intros H; inversion H; subst. now apply (int_from_nonneg _ _ _ (Z.le_refl 0) E).
Qed.

Lemma int_from_plain (s : string) :
  forall acc, plain s = true ->
  int_from acc (join_filter isdigit s) = Ok (decimal_value acc s).
Proof.
  induction s as [|c s IH]; simpl; intros acc P; [reflexivity|].
  apply andb_true_iff in P as [Pc Ps].
  destruct (isdecimal c) eqn:D.
  - rewrite (isdecimal_isdigit c D); simpl. rewrite D. now apply IH.
  - destruct (isdigit c); [discriminate|]. now apply IH.
Qed.

Lemma join_filter_plain (s : string) :
  plain s = true -> join_filter isdigit s = join_filter isdecimal s.
Proof.
  induction s as [|c s IH]; simpl; intros P; [reflexivity|].
  apply andb_true_iff in P as [Pc Ps]. rewrite (IH Ps).
  destruct (isdecimal c) eqn:D.
  - now rewrite (isdecimal_isdigit c D).
  - now destruct (isdigit c).
Qed.

(** On a text without superscripts [extract_number] is the number written by
    the decimal digits of the text, [None] when there is none, and an
    exception when there are more than the limit. *)
Lemma extract_number_plain (s : string) :
  plain s = true ->
  extract_number s =
    match join_filter isdecimal s with
    | EmptyString => Ok None
    | digits =>
        if over_limit digits then Raise ValueError
        else Ok (Some (decimal_value 0 s))
    end.
Proof.
  intros P. unfold extract_number, int.
  rewrite (int_from_plain s 0 P), (join_filter_plain s P).
  destruct (join_filter isdecimal s) as [|c d]; [reflexivity|].
  now destruct (over_limit (String c d)).
Qed.

(** ** Facts about one call *)

(** A call keeps the step or moves it to the next one. *)
Lemma on_message_rank (self : Assistant) (text : string) :
  (rank (current_step self)
   <= rank (current_step (fst (on_message self text)))
   <= S (rank (current_step self)))%nat.
Proof.
  unfold on_message.
  destruct self as [st []]; cbn [current_step state];
    repeat match goal with
           | |- context [if ?b then _ else _] => destruct b
           | |- context [match extract_number ?t with _ => _ end] =>
               destruct (extract_number t) as [[?|]|?]
           end; cbn [fst current_step rank]; lia.
Qed.

(** A call never lowers the two totals. *)
Lemma on_message_totals (self : Assistant) (text : string) :
  water (state self) <= water (state (fst (on_message self text)))
  /\ steps (state self) <= steps (state (fst (on_message self text))).
Proof.
  unfold on_message.
  destruct self as [st []]; cbn [current_step state];
    repeat match goal with
           | |- context [if ?b then _ else _] => destruct b
           | |- context [match extract_number ?t with _ => _ end] =>
               let E := fresh "E" in
               destruct (extract_number t) as [[?|]|?] eqn:E;
               try apply extract_number_nonneg in E
           end; cbn; lia.
Qed.

Lemma visited_head (self : Assistant) (texts : list string) :
  exists tl, visited self texts = current_step self :: tl.
Proof. destruct texts; simpl; eauto. Qed.

Lemma run_cons (self : Assistant) (t : string) (ts : list string) :
  run self (t :: ts) = run (fst (on_message self t)) ts.
Proof. reflexivity. Qed.

(** What a call in the mood step does, by whether the text is blank. *)
Lemma on_message_mood (st : State) (text : string) :
  on_message {| state := st; current_step := Mood |} text =
    if blank text
    then ({| state := st; current_step := Mood |},
          Ok "How are you feeling today?")
    else
      let label := strip (replace "feeling" "" (lower text)) in
      ({| state := set_mood label st; current_step := Water |},
       Ok ("Got it. You're feeling " ++ label
           ++ ". How much water have you had today?")).
Proof.
  unfold on_message; cbn [current_step state].
  rewrite mood_test, blank_lower.
  destruct (blank text); reflexivity.
Qed.

Lemma plain_lower (s : string) : plain (lower s) = plain s.
Proof.
  induction s as [|c s IH]; simpl; [reflexivity|].
  rewrite IH, isdigit_lower_char.
  destruct (isdigit c) eqn:E; [|reflexivity].
  now rewrite (lower_char_digit c E).
Qed.

(** On a text without superscripts the number steps read the decimal digits
    of the text as typed. *)
Lemma extract_number_lower_plain (text : string) :
  plain text = true ->
  extract_number (lower text) =
    match join_filter isdecimal text with
    | EmptyString => Ok None
    | digits =>
        if over_limit digits then Raise ValueError
        else Ok (Some (decimal_value 0 text))
    end.
Proof.
  intros P. unfold extract_number. rewrite join_filter_lower.
  apply (extract_number_plain text P).
Qed.

(** Without superscripts and without decimal digits in the text, a call in a
    number step asks again and changes nothing. *)
Lemma on_message_plain_reprompt (st : State) (text : string) :
  plain text = true -> join_filter isdecimal text = "" ->
  on_message {| state := st; current_step := Water |} text
    = ({| state := st; current_step := Water |},
       Ok "How much water did you drink?")
  /\ on_message {| state := st; current_step := Sleep |} text
    = ({| state := st; current_step := Sleep |},
       Ok "How many hours did you sleep?")
  /\ on_message {| state := st; current_step := Steps |} text
    = ({| state := st; current_step := Steps |},
       Ok "How many steps did you walk?").
Proof.
  intros P D. unfold on_message; cbn [current_step state].
  rewrite (extract_number_lower_plain text P), D. repeat split.
Qed.

(** ** Facts about sessions *)

Lemma squash_two (a b : Step) (tl : list Step) :
  squash (a :: b :: tl)
  = if Step_eqb a b then squash (b :: tl) else a :: squash (b :: tl).
Proof. reflexivity. Qed.

Lemma visited_advancing (texts : list string) :
  forall self, advancing (visited self texts).
Proof.
  induction texts as [|t ts IH]; intros self; [exact I|].
  cbn [visited].
  destruct (visited_head (fst (on_message self t)) ts) as [tl E].
  specialize (IH (fst (on_message self t))). rewrite E in *.
  split; [apply on_message_rank | exact IH].
Qed.

(** Without repetitions, the steps of a session are an initial part of what
    is left of [order] from the step the session starts in. *)
Lemma visited_squash (texts : list string) :
  forall self, exists k,
    squash (visited self texts)
    = firstn (S k) (skipn (rank (current_step self)) order).
Proof.
  induction texts as [|t ts IH]; intros self.
  - exists O. cbn [visited]. now destruct (current_step self).
  - cbn [visited].
    pose proof (on_message_rank self t) as R.
    destruct (IH (fst (on_message self t))) as [k Hk].
    destruct (visited_head (fst (on_message self t)) ts) as [tl E].
    rewrite E in *. rewrite squash_two, Hk.
    destruct (current_step self), (current_step (fst (on_message self t)));
      cbn in R; try lia;
      first [ now exists k | now exists (S k) ].
Qed.

Lemma run_totals (texts : list string) :
  forall self,
    water (state self) <= water (state (run self texts))
    /\ steps (state self) <= steps (state (run self texts)).
Proof.
  induction texts as [|t ts IH]; intros self; [cbn; lia|].
  rewrite run_cons.
  pose proof (on_message_totals self t). pose proof (IH (fst (on_message self t))).
  lia.
Qed.

(** ** Properties of the tracker *)

(** C1. [extract_number] is meant to return the number written by the decimal
    digits of the text, and [None] when the text has none.  On a text with a
    superscript digit it does neither: [str.isdigit] keeps the superscript,
    [int] rejects it, and the call raises [ValueError].  The text "5" followed
    by U+00B2 has the single decimal digit 5, and U+00B2 alone has none; both
    raise. *)
Theorem extract_number_superscript_raises :
  join_filter isdecimal ("5" ++ superscript_two) = "5"
  /\ extract_number ("5" ++ superscript_two) = Raise ValueError
  /\ join_filter isdecimal superscript_two = ""
  /\ extract_number superscript_two = Raise ValueError.
Proof. repeat split. Qed.

(** C2. In every session the step never moves backwards and never jumps over
    a step: each call keeps it or moves it to the next one, from whatever
    assistant the session starts; and from a new assistant the steps visited,
    without repetitions, are an initial part of mood, water, sleep, steps,
    done. *)
Theorem current_step_only_advances (texts : list string) :
  (forall self, advancing (visited self texts))
  /\ exists k, squash (visited init texts) = firstn k order.
Proof.
  split; [apply visited_advancing|].
  destruct (visited_squash texts init) as [k Hk].
  now exists (S k).
Qed.

(** C3. No call lowers [water] or [steps], hence no session does; and after
    a call [sleep] is the number that call parsed in the sleep step, whatever
    it held before, or is unchanged when the call parsed none there. *)
Theorem totals_grow_and_sleep_is_overwritten (self : Assistant) (text : string) :
  (water (state self) <= water (state (fst (on_message self text)))
   /\ steps (state self) <= steps (state (fst (on_message self text))))
  /\ sleep (state (fst (on_message self text)))
     = match hours_parsed self text with
       | Some hours => Some hours
       | None => sleep (state self)
       end
  /\ forall texts,
       water (state self) <= water (state (run self texts))
       /\ steps (state self) <= steps (state (run self texts)).
Proof.
  split; [apply on_message_totals|].
  split; [|intros texts; apply run_totals].
  unfold hours_parsed, on_message.
  destruct self as [st []]; cbn [current_step state];
    repeat match goal with
           | |- context [if ?b then _ else _] => destruct b
           | |- context [match extract_number ?t with _ => _ end] =>
               destruct (extract_number t) as [[?|]|?]
           end; reflexivity.
Qed.

(** C4. In the done step a call changes neither the record nor the step and
    sends the closing text, whatever the utterance; so does every further
    call of the session. *)
Theorem done_is_final (st : State) (text : string) (texts : list string) :
  on_message {| state := st; current_step := Done |} text
    = ({| state := st; current_step := Done |}, Ok closing)
  /\ run {| state := st; current_step := Done |} texts
     = {| state := st; current_step := Done |}
  /\ Forall (fun r => r = Ok closing)
       (responses {| state := st; current_step := Done |} texts).
Proof.
  split; [reflexivity|].
  split; induction texts as [|t ts IH]; try reflexivity; try exact IH.
  - constructor.
  - constructor; [reflexivity | exact IH].
Qed.

(** C5. A text without decimal digits handled in the water, sleep or steps
    step should get the question again.  The one-character text U+00B2 has
    no decimal digit, yet in each of the three steps the call raises
    [ValueError] and sends nothing (the record and the step do stay as they
    were). *)
Theorem superscript_gets_no_reprompt (st : State) :
  join_filter isdecimal superscript_two = ""
  /\ on_message {| state := st; current_step := Water |} superscript_two
     = ({| state := st; current_step := Water |}, Raise ValueError)
  /\ on_message {| state := st; current_step := Sleep |} superscript_two
     = ({| state := st; current_step := Sleep |}, Raise ValueError)
  /\ on_message {| state := st; current_step := Steps |} superscript_two
     = ({| state := st; current_step := Steps |}, Raise ValueError).
Proof. repeat split. Qed.

(** C6, as written: a text that is not blank is stored as the mood as it
    was given, but for the "feeling" taken out of it.  "Happy" has no
    "feeling" to take out, and yet it is "happy" that is stored. *)
Lemma happy_is_stored_in_lower_case :
  replace "feeling" "" "Happy" = "Happy"
  /\ mood (state (fst (on_message init "Happy"))) = Some "happy"
  /\ mood (state (fst (on_message init "Happy"))) <> Some "Happy".
Proof. repeat split. discriminate. Qed.

(** C6, amended.  In the mood step a call moves on to water exactly when the
    text is not blank, and then stores as the mood the text in lower case
    with every "feeling" taken out and the result trimmed, leaving the three
    numbers as they were; a blank text, and only a blank text, gets the mood
    question again with nothing changed.  Blank means that trimming the text
    leaves nothing. *)
Theorem mood_advances_unless_blank (st : State) (text : string) :
  on_message {| state := st; current_step := Mood |} text
    = (if blank text
       then ({| state := st; current_step := Mood |},
             Ok "How are you feeling today?")
       else
         let label := strip (replace "feeling" "" (lower text)) in
         ({| state := {| mood := Some label; water := water st;
                         sleep := sleep st; steps := steps st |};
             current_step := Water |},
          Ok ("Got it. You're feeling " ++ label
              ++ ". How much water have you had today?")))
  /\ (blank text = true <-> strip text = "").
Proof.
  split; [apply on_message_mood | symmetry; apply strip_empty_iff].
Qed.

(** Within one run the answer "200" moves the water step on to sleep, so a
    "300" that follows at once is taken as the hours slept. *)
Lemma run_200_300 (st : State) :
  run {| state := st; current_step := Water |} ["200"; "300"]
  = {| state := {| mood := mood st; water := water st + 200;
                   sleep := Some 300; steps := steps st |};
       current_step := Steps |}.
Proof. reflexivity. Qed.

(** C7. Two utterances "200" and "300" handled in the water step, the second
    on the record that the first has left, add up: the total grows by 200 and
    then by 300, to 500 from the 0 of a new record.  Both calls are made with
    the step at water, as the claim supposes.  In general a call in the water
    step adds the number it reads to the total, and leaves the total alone
    when it reads none. *)
Theorem water_200_then_300_adds_to_500 (st : State) :
  let handled_in_water record text :=
    state (fst (on_message {| state := record; current_step := Water |} text)) in
  water (handled_in_water st "200") = water st + 200
  /\ water (handled_in_water (handled_in_water st "200") "300")
     = water st + 500
  /\ water (handled_in_water (handled_in_water (state init) "200") "300")
     = 500
  /\ forall text,
       water (handled_in_water st text)
       = match extract_number (lower text) with
         | Ok (Some amount) => water st + amount
         | _ => water st
         end.
Proof.
  cbv zeta. split; [reflexivity|]. split; [cbn; lia|]. split; [reflexivity|].
  intros text. unfold on_message; cbn [current_step state].
  now destruct (extract_number (lower text)) as [[?|]|?].
Qed.

(** C8, as written: "I'm feeling great" in the mood step would store "great"
    or "i'm great" and send "Got it. You're feeling great. How much water
    have you had today?".  It does neither. *)
Lemma feeling_great_is_not_great :
  let r := on_message init "I'm feeling great" in
  mood (state (fst r)) <> Some "great"
  /\ mood (state (fst r)) <> Some "i'm great"
  /\ snd r
     <> Ok "Got it. You're feeling great. How much water have you had today?".
Proof. repeat split; discriminate. Qed.

(** C8, amended.  "I'm feeling great" in the mood step stores "i'm  great",
    the lower-case text without "feeling" and with both blanks that stood
    around it, moves on to water and sends "Got it. You're feeling i'm  great.
    How much water have you had today?". *)
Theorem feeling_great_keeps_the_rest (st : State) :
  on_message {| state := st; current_step := Mood |} "I'm feeling great"
  = ({| state := {| mood := Some "i'm  great"; water := water st;
                    sleep := sleep st; steps := steps st |};
        current_step := Water |},
     Ok "Got it. You're feeling i'm  great. How much water have you had today?").
Proof. reflexivity. Qed.

(** C9. Every call should end with a response.  In a session that answers
    the mood question with "fine" and the water question with U+00B2, the
    second call raises [ValueError] instead, and the assistant is still
    waiting in the water step. *)
Theorem session_can_raise :
  responses init ["fine"; superscript_two]
    = [Ok "Got it. You're feeling fine. How much water have you had today?";
       Raise ValueError]
  /\ visited init ["fine"; superscript_two] = [Mood; Water; Water].
Proof. split; reflexivity. Qed.

(** C10. A text that is not blank, but of which nothing is left once
    "feeling" is taken out and the rest trimmed, moves the mood step on to
    water and stores the empty text as the mood. *)
Theorem mood_label_can_be_empty (st : State) (text : string) :
  blank text = false ->
  strip (replace "feeling" "" (lower text)) = "" ->
  on_message {| state := st; current_step := Mood |} text
  = ({| state := {| mood := Some ""; water := water st;
                    sleep := sleep st; steps := steps st |};
        current_step := Water |},
     Ok "Got it. You're feeling . How much water have you had today?").
Proof.
  intros B L. rewrite on_message_mood, B. cbn zeta. now rewrite L.
Qed.

(** The single word "feeling" is such a text. *)
Lemma mood_label_can_be_empty_witness :
  blank "feeling" = false
  /\ strip (replace "feeling" "" (lower "feeling")) = ""
  /\ on_message init "feeling"
     = ({| state := {| mood := Some ""; water := 0; sleep := None;
                       steps := 0 |};
           current_step := Water |},
        Ok "Got it. You're feeling . How much water have you had today?").
Proof.
  split; [reflexivity|]. split; [reflexivity|].
  apply (mood_label_can_be_empty (state init) "feeling"); reflexivity.
Defined.

(** ** More on [extract_number] *)

Lemma int_from_not_plain (s : string) :
  forall acc, plain s = false ->
  int_from acc (join_filter isdigit s) = Raise ValueError.
Proof.
  induction s as [|c s IH]; simpl; intros acc P; [discriminate|].
  destruct (isdigit c) eqn:G, (isdecimal c) eqn:D; simpl in *;
    rewrite ?D; auto.
Qed.

Lemma extract_number_not_plain (s : string) :
  plain s = false -> extract_number s = Raise ValueError.
Proof.
  intros P. unfold extract_number, int.
  pose proof (int_from_not_plain s 0 P) as R.
  destruct (join_filter isdigit s) as [|c d]; [discriminate R|].
  rewrite R. now destruct (over_limit (String c d)).
Qed.

(** X1. What [extract_number] does on every text.  It raises [ValueError]
    when the text has a digit character that is no decimal digit (a
    superscript), or more decimal digits than the limit of 4300; otherwise
    it returns [None] when the text has no decimal digit, and else the number
    that the decimal digits of the text write in base ten, in the order they
    stand. *)
Theorem extract_number_outcome (text : string) :
  extract_number text =
    if plain text then
      match join_filter isdecimal text with
      | EmptyString => Ok None
      | digits =>
          if over_limit digits then Raise ValueError
          else Ok (Some (decimal_value 0 text))
      end
    else Raise ValueError.
Proof.
  destruct (plain text) eqn:P;
    [apply extract_number_plain | apply extract_number_not_plain]; exact P.
Qed.

Lemma join_filter_app (p : ascii -> bool) (a b : string) :
  join_filter p (a ++ b) = join_filter p a ++ join_filter p b.
Proof.
  induction a as [|c a IH]; simpl; [reflexivity|].
  destruct (p c); simpl; now rewrite IH.
Qed.

(** X2. [extract_number] does not see the characters that are no digits:
    with such a character put anywhere into a text, or taken out of it, the
    outcome is the same. *)
Theorem extract_number_skips_other_characters (a b : string) (c : ascii) :
  isdigit c = false ->
  extract_number (a ++ String c b) = extract_number (a ++ b).
Proof.
  intros G. unfold extract_number.
  rewrite !join_filter_app. simpl. now rewrite G.
Qed.

Lemma extract_number_skips_other_characters_witness :
  isdigit "-" = false
  /\ extract_number ("12" ++ String "-" "34") = extract_number ("12" ++ "34").
Proof.
  split; [reflexivity|].
  apply (extract_number_skips_other_characters "12" "34" "-"); reflexivity.
Defined.

Lemma int_from_bounds (s : string) :
  forall acc n, int_from acc s = Ok n ->
  acc * 10 ^ Z.of_nat (String.length s) <= n
  /\ n < (acc + 1) * 10 ^ Z.of_nat (String.length s).
Proof.
  induction s as [|c s IH]; intros acc n H.
  - simpl in H. inversion H; subst. simpl. lia.
  - cbn [int_from] in H. destruct (isdecimal c) eqn:D; [|discriminate].
    pose proof (digit_value_range c D) as V.
    apply IH in H.
    cbn [String.length]. rewrite Nat2Z.inj_succ, Z.pow_succ_r by lia.
    set (P := 10 ^ Z.of_nat (String.length s)) in *.
    assert (0 < P) by (apply Z.pow_pos_nonneg; lia).
    assert (0 <= digit_value c * P) by (apply Z.mul_nonneg_nonneg; lia).
    assert (0 <= (9 - digit_value c) * P) by (apply Z.mul_nonneg_nonneg; lia).
    lia.
Qed.

(** What [extract_number] returns comes from [int_from] on the digit
    characters of the text, which are within the limit. *)
Lemma extract_number_some (text : string) (n : Z) :
  extract_number text = Ok (Some n) ->
  join_filter isdigit text <> ""
  /\ over_limit (join_filter isdigit text) = false
  /\ int_from 0 (join_filter isdigit text) = Ok n.
Proof.
  unfold extract_number, int.
  destruct (join_filter isdigit text) as [|c s]; [discriminate|].
  destruct (over_limit (String c s)); [discriminate|].
  destruct (int_from 0 (String c s)) as [m|e]; [|discriminate].
  intros H; inversion H; subst. now repeat split.
Qed.

(** X3. A number that [extract_number] returns is at least 0 and has no more
    decimal places than the text has digit characters. *)
Theorem extract_number_bound (text : string) (n : Z) :
  extract_number text = Ok (Some n) ->
  0 <= n < 10 ^ Z.of_nat (String.length (join_filter isdigit text)).
Proof.
  intros H. apply extract_number_some in H as (_ & _ & E).
  apply int_from_bounds in E. lia.
Qed.

Lemma extract_number_bound_witness :
  extract_number "about 8 or 9 hours" = Ok (Some 89)
  /\ 0 <= 89 < 10 ^ Z.of_nat (String.length (join_filter isdigit "about 8 or 9 hours")).
Proof.
  split; [reflexivity|].
  apply (extract_number_bound "about 8 or 9 hours" 89); reflexivity.
Defined.

Lemma int_from_app (a b : string) :
  forall acc,
  int_from acc (a ++ b) =
    match int_from acc a with
    | Ok m => int_from m b
    | Raise e => Raise e
    end.
Proof.
  induction a as [|c a IH]; simpl; intros acc; [reflexivity|].
  destruct (isdecimal c); [apply IH | reflexivity].
Qed.

Lemma int_from_shift (s : string) :
  forall acc n d, int_from acc s = Ok n ->
  int_from (acc + d) s = Ok (n + d * 10 ^ Z.of_nat (String.length s)).
Proof.
  induction s as [|c s IH]; intros acc n d H.
  - simpl in *. inversion H; subst. f_equal. lia.
  - cbn [int_from] in H. destruct (isdecimal c) eqn:D; [|discriminate].
    cbn [int_from String.length]. rewrite D.
    replace (10 * (acc + d) + digit_value c)
      with (10 * acc + digit_value c + 10 * d) by lia.
    rewrite (IH _ _ (10 * d) H). f_equal.
    rewrite Nat2Z.inj_succ, Z.pow_succ_r by lia. lia.
Qed.

(** X4. Digits of separate numbers in one text run together: when
    [extract_number] reads [x] from one text and [y] from another, and the
    two texts have no more than 4300 digit characters between them, it reads
    from the first followed by the second the number [x] with the digits of
    [y] appended, so "about 8 or " and "9 hours" give 89. *)
Theorem extract_number_concatenates (a b : string) (x y : Z) :
  extract_number a = Ok (Some x) ->
  extract_number b = Ok (Some y) ->
  over_limit (join_filter isdigit (a ++ b)) = false ->
  extract_number (a ++ b)
  = Ok (Some (x * 10 ^ Z.of_nat (String.length (join_filter isdigit b)) + y)).
Proof.
  intros Hx Hy L.
  apply extract_number_some in Hx as (Na & _ & Ia).
  apply extract_number_some in Hy as (_ & _ & Ib).
  pose proof (int_from_shift _ 0 y x Ib) as S. rewrite Z.add_0_l in S.
  unfold extract_number, int. rewrite L.
  rewrite join_filter_app, int_from_app, Ia, S.
  destruct (join_filter isdigit a) as [|c da]; [contradiction|].
  cbn [append]. do 2 f_equal. lia.
Qed.

Lemma extract_number_concatenates_witness :
  extract_number "about 8 or " = Ok (Some 8)
  /\ extract_number "9 hours" = Ok (Some 9)
  /\ over_limit (join_filter isdigit ("about 8 or " ++ "9 hours")) = false
  /\ extract_number ("about 8 or " ++ "9 hours") = Ok (Some 89).
Proof.
  split; [reflexivity|]. split; [reflexivity|]. split; [reflexivity|].
  apply (extract_number_concatenates "about 8 or " "9 hours" 8 9); reflexivity.
Defined.

(** *** Numbers written by [str] *)

Lemma int_from_digit (c : ascii) (s : string) (acc : Z) :
  isdecimal c = true ->
  int_from acc (String c s) = int_from (10 * acc + digit_value c) s.
Proof. intros D. cbn [int_from]. now rewrite D. Qed.

Ltac digit_step IH :=
  rewrite int_from_digit by reflexivity;
  rewrite <- IH; f_equal;
  match goal with
  | |- context [digit_value ?c] =>
      let v := eval vm_compute in (digit_value c) in
      change (digit_value c) with v
  end; lia.

Lemma int_from_uint_acc (d : Decimal.uint) :
  forall acc : positive,
  int_from (Z.pos acc) (NilEmpty.string_of_uint d)
  = Ok (Z.pos (Pos.of_uint_acc d acc)).
Proof.
  induction d as [|d IH|d IH|d IH|d IH|d IH|d IH|d IH|d IH|d IH|d IH];
    intros acc; cbn [NilEmpty.string_of_uint Pos.of_uint_acc];
    [reflexivity | digit_step IH ..].
Qed.

Lemma int_from_uint (d : Decimal.uint) :
  int_from 0 (NilEmpty.string_of_uint d) = Ok (Z.of_N (Pos.of_uint d)).
Proof.
  induction d as [|d IH|d IH|d IH|d IH|d IH|d IH|d IH|d IH|d IH|d IH];
    cbn [NilEmpty.string_of_uint Pos.of_uint];
    [reflexivity | rewrite int_from_digit by reflexivity; exact IH | ..];
    rewrite int_from_digit by reflexivity;
    cbn [Z.of_N]; rewrite <- int_from_uint_acc; reflexivity.
Qed.

Lemma join_filter_uint (d : Decimal.uint) :
  join_filter isdigit (NilEmpty.string_of_uint d) = NilEmpty.string_of_uint d.
Proof.
  induction d; cbn [NilEmpty.string_of_uint join_filter];
    [reflexivity | ..];
    match goal with
    | |- context [isdigit ?c] => change (isdigit c) with true
    end; cbn iota; now f_equal.
Qed.

Lemma numeral_pos (p : positive) :
  numeral (Z.pos p) = NilEmpty.string_of_uint (Pos.to_uint p).
Proof.
  unfold numeral; cbn [Z.to_int NilZero.string_of_int].
  pose proof (Unsigned.to_uint_nonnil p).
  destruct (Pos.to_uint p); [contradiction | reflexivity ..].
Qed.

Lemma numeral_neg (p : positive) :
  numeral (Z.neg p) = String "-" (numeral (Z.pos p)).
Proof. reflexivity. Qed.

(** A numeral written for a positive number does not begin with 0. *)
Lemma to_uint_head (p : positive) (d : Decimal.uint) :
  Pos.to_uint p <> Decimal.D0 d.
Proof.
  intros E.
  pose proof (Unsigned.to_of (Pos.to_uint p)) as U.
  rewrite Unsigned.of_to in U. cbn [N.to_uint] in U.
  destruct (Decimal.uint_eq_dec (Decimal.nzhead (Pos.to_uint p)) Decimal.Nil) as [Z|NZ].
  - apply unorm_0 in Z. rewrite <- U in Z.
    exact (Unsigned.to_uint_nonzero p Z).
  - rewrite (unorm_nzhead _ NZ) in U. rewrite E in U at 1.
    exact (nzhead_nonzero _ _ (eq_sym U)).
Qed.

Lemma int_from_head (c : ascii) (s : string) (n : Z) :
  isdecimal c = true -> 1 <= digit_value c ->
  int_from 0 (String c s) = Ok n ->
  10 ^ Z.of_nat (String.length s) <= n.
Proof.
  intros D V H. rewrite (int_from_digit c s 0 D) in H.
  apply int_from_bounds in H as [H _].
  assert (0 < 10 ^ Z.of_nat (String.length s)) by (apply Z.pow_pos_nonneg; lia).
  nia.
Qed.

(** A positive number is at least 10 to the number of digits after the
    first of its numeral. *)
Lemma numeral_pos_size (p : positive) :
  10 ^ (Z.of_nat (String.length (numeral (Z.pos p))) - 1) <= Z.pos p.
Proof.
  rewrite numeral_pos.
  pose proof (int_from_uint (Pos.to_uint p)) as I.
  rewrite Unsigned.of_to in I. cbn [Z.of_N] in I.
  pose proof (to_uint_head p) as H0.
  pose proof (Unsigned.to_uint_nonnil p) as HN.
  destruct (Pos.to_uint p) as [|d|d|d|d|d|d|d|d|d|d];
    [contradiction | exfalso; exact (H0 d eq_refl) | ..];
    cbn [NilEmpty.string_of_uint String.length] in *;
    rewrite Nat2Z.inj_succ;
    replace (Z.succ (Z.of_nat (String.length (NilEmpty.string_of_uint d))) - 1)
      with (Z.of_nat (String.length (NilEmpty.string_of_uint d))) by lia;
    refine (int_from_head _ _ _ _ _ I); vm_compute; congruence.
Qed.

(** A number below 10 to the limit has a numeral within the limit. *)
Lemma numeral_within_limit (n : Z) :
  0 <= n < 10 ^ int_max_str_digits -> over_limit (numeral n) = false.
Proof.
  intros [N0 NL]. destruct n as [|p|p]; [reflexivity | | lia].
  unfold over_limit. apply Z.ltb_ge.
  destruct (Z_le_gt_dec (Z.of_nat (String.length (numeral (Z.pos p))))
                        int_max_str_digits) as [L|G]; [exact L|].
  exfalso.
  pose proof (numeral_pos_size p) as S.
  assert (0 <= int_max_str_digits) by (unfold int_max_str_digits; lia).
  assert (10 ^ int_max_str_digits
          <= 10 ^ (Z.of_nat (String.length (numeral (Z.pos p))) - 1))
    by (apply Z.pow_le_mono_r; lia).
  lia.
Qed.

(** [str] returns on every number of at most 4300 digits. *)
Lemma str_within_limit (n : Z) :
  Z.abs n < 10 ^ int_max_str_digits -> str n = Ok (numeral n).
Proof.
  intros L. unfold str.
  now rewrite (numeral_within_limit (Z.abs n)) by (split; [apply Z.abs_nonneg | exact L]).
Qed.

Lemma extract_number_numeral (n : Z) :
  over_limit (numeral (Z.abs n)) = false ->
  extract_number (numeral n) = Ok (Some (Z.abs n)).
Proof.
  assert (P : forall p, over_limit (numeral (Z.pos p)) = false ->
                        extract_number (numeral (Z.pos p)) = Ok (Some (Z.pos p))).
  { intros p L. unfold extract_number, int.
    rewrite numeral_pos in *. rewrite join_filter_uint, L, int_from_uint.
    rewrite Unsigned.of_to. cbn [Z.of_N].
    pose proof (Unsigned.to_uint_nonnil p).
    destruct (Pos.to_uint p); [contradiction | reflexivity ..]. }
  destruct n as [|p|p]; cbn [Z.abs]; intros L; [reflexivity | exact (P p L) |].
  rewrite numeral_neg. exact (P p L).
Qed.

(** X5. [extract_number] reads back the numbers that the responses print:
    for every integer [n] of at most 4300 digits [str] returns a text, and
    on that text [extract_number] returns [n] when [n >= 0], and [-n] when
    [n] is negative, as the sign character is no digit. *)
Theorem extract_number_of_str (n : Z) :
  Z.abs n < 10 ^ int_max_str_digits ->
  exists text, str n = Ok text /\ extract_number text = Ok (Some (Z.abs n)).
Proof.
  intros L. exists (numeral n). split; [exact (str_within_limit n L)|].
  apply extract_number_numeral, numeral_within_limit.
  split; [apply Z.abs_nonneg | exact L].
Qed.

Lemma extract_number_of_str_witness :
  Z.abs (-4200) < 10 ^ int_max_str_digits
  /\ exists text,
       str (-4200) = Ok text /\ extract_number text = Ok (Some (Z.abs (-4200))).
Proof.
  assert (L : Z.abs (-4200) < 10 ^ int_max_str_digits) by (vm_compute; reflexivity).
  split; [exact L | exact (extract_number_of_str (-4200) L)].
Defined.

(** ** More on [on_message] *)

Lemma extract_number_lower (text : string) :
  extract_number (lower text) = extract_number text.
Proof. unfold extract_number. now rewrite join_filter_lower. Qed.

(** A number that [extract_number] returns can be printed by [str]. *)
Lemma extract_number_size (text : string) (n : Z) :
  extract_number text = Ok (Some n) -> 0 <= n < 10 ^ int_max_str_digits.
Proof.
  intros H. apply extract_number_some in H as (_ & L & E).
  apply int_from_bounds in E. apply Z.ltb_ge in L.
  assert (10 ^ Z.of_nat (String.length (join_filter isdigit text))
          <= 10 ^ int_max_str_digits) by (apply Z.pow_le_mono_r; lia).
  lia.
Qed.

Lemma extract_number_returns (text : string) :
  plain text = true -> over_limit (join_filter isdigit text) = false ->
  exists r, extract_number text = Ok r.
Proof.
  intros P L. rewrite (extract_number_plain text P).
  rewrite (join_filter_plain text P) in L.
  destruct (join_filter isdecimal text); [eauto|]. rewrite L. eauto.
Qed.

Lemma extract_number_over_limit (text : string) :
  over_limit (join_filter isdigit text) = true ->
  extract_number text = Raise ValueError.
Proof.
  intros L. unfold extract_number, int.
  destruct (join_filter isdigit text); [discriminate L|]. now rewrite L.
Qed.

(** In a session of a new assistant a call sends a response whenever it is
    made in the mood or the done step, or on a text without superscripts and
    within the digit limit. *)
Lemma on_message_responds (self : Assistant) (text : string) :
  settled self ->
  asks_number (current_step self) = false
  \/ (plain text = true /\ over_limit (join_filter isdigit text) = false) ->
  exists prompt, snd (on_message self text) = Ok prompt.
Proof.
  unfold settled, on_message. rewrite extract_number_lower.
  destruct self as [st []]; cbn [current_step state asks_number]; intros S H.
  - destruct (_ || _)%bool; cbn [snd]; eauto.
  - destruct H as [H|[P L]]; [discriminate|].
    destruct (extract_number_returns text P L) as [[n|] E]; rewrite E;
      cbn [snd]; [|eauto].
    destruct S as (_ & W & _). cbn [add_water state water]. rewrite W.
    rewrite str_within_limit; [cbn [map_ok]; eauto|].
    apply extract_number_size in E. rewrite Z.add_0_l, Z.abs_eq; lia.
  - destruct H as [H|[P L]]; [discriminate|].
    destruct (extract_number_returns text P L) as [[n|] E]; rewrite E;
      cbn [snd]; [|eauto].
    rewrite str_within_limit; [cbn [map_ok]; eauto|].
    apply extract_number_size in E. rewrite Z.abs_eq; lia.
  - destruct H as [H|[P L]]; [discriminate|].
    destruct (extract_number_returns text P L) as [[n|] E]; rewrite E;
      cbn [snd]; [|eauto].
    destruct S as (_ & _ & _ & W). cbn [add_steps state steps]. rewrite W.
    rewrite str_within_limit; [cbn [map_ok]; eauto|].
    apply extract_number_size in E. rewrite Z.add_0_l, Z.abs_eq; lia.
  - cbn [snd]; eauto.
Qed.

(** In a number step a text with a superscript, or with more digit
    characters than the limit, makes the call raise. *)
Lemma on_message_raises (self : Assistant) (text : string) :
  asks_number (current_step self) = true ->
  plain text = false \/ over_limit (join_filter isdigit text) = true ->
  snd (on_message self text) = Raise ValueError.
Proof.
  intros A H.
  assert (E : extract_number text = Raise ValueError)
    by (destruct H; [now apply extract_number_not_plain
                    | now apply extract_number_over_limit]).
  unfold on_message. rewrite extract_number_lower, E.
  destruct self as [st []]; cbn [current_step asks_number] in *;
    try discriminate A; reflexivity.
Qed.

(** Splits a goal about [on_message] into the branches of the method. *)
Ltac branches self :=
  unfold on_message;
  destruct self as [?st []]; cbn [current_step state];
  repeat match goal with
         | |- context [if ?b then _ else _] => destruct b eqn:?
         | |- context [match extract_number ?t with _ => _ end] =>
             destruct (extract_number t) as [[?|]|[]] eqn:?
         end; cbn [fst snd current_step state].

(** X6. In a session of a new assistant, a call raises exactly when it is
    made in a step that reads a number (water, sleep, steps) on a text that
    has a superscript digit or more than 4300 digit characters; in every
    other case it sends a response. *)
Theorem on_message_raises_iff (self : Assistant) (text : string) :
  settled self ->
  (snd (on_message self text) = Raise ValueError
   <-> asks_number (current_step self) = true
       /\ (plain text = false
           \/ over_limit (join_filter isdigit text) = true)).
Proof.
  intros S. split.
  - intros R.
    destruct (asks_number (current_step self)) eqn:A,
             (plain text) eqn:P,
             (over_limit (join_filter isdigit text)) eqn:L; auto;
      exfalso;
      (destruct (on_message_responds self text S) as [prompt E];
       [rewrite ?A, ?P, ?L; auto | congruence]).
  - intros [A H]. now apply on_message_raises.
Qed.

Lemma on_message_raises_iff_witness :
  let self := {| state := {| mood := Some "fine"; water := 0; sleep := None;
                             steps := 0 |};
                 current_step := Water |} in
  settled self
  /\ (snd (on_message self superscript_two) = Raise ValueError
      <-> asks_number (current_step self) = true
          /\ (plain superscript_two = false
              \/ over_limit (join_filter isdigit superscript_two) = true)).
Proof.
  cbv zeta.
  assert (S : settled {| state := {| mood := Some "fine"; water := 0;
                                     sleep := None; steps := 0 |};
                         current_step := Water |})
    by (repeat split; discriminate).
  split; [exact S | exact (on_message_raises_iff _ superscript_two S)].
Defined.



(** X8. A call writes at most the field of the question it is at: the mood
    step leaves the three numbers alone, the water step leaves mood, sleep
    and steps alone, and so on; in the done step the record is left whole. *)
Theorem on_message_frame (self : Assistant) (text : string) :
  let st := state self in
  let st' := state (fst (on_message self text)) in
  match current_step self with
  | Mood => water st' = water st /\ sleep st' = sleep st /\ steps st' = steps st
  | Water => mood st' = mood st /\ sleep st' = sleep st /\ steps st' = steps st
  | Sleep => mood st' = mood st /\ water st' = water st /\ steps st' = steps st
  | Steps => mood st' = mood st /\ water st' = water st /\ sleep st' = sleep st
  | Done => st' = st
  end.
Proof. cbv zeta. branches self; repeat split. Qed.

Lemma settled_on_message (self : Assistant) (text : string) :
  settled self -> settled (fst (on_message self text)).
Proof.
  unfold settled.
  branches self;
    repeat match goal with
           | E : extract_number _ = Ok (Some _) |- _ =>
               apply extract_number_nonneg in E
           end;
    cbn; intros H; try exact H;
    decompose [and] H; repeat split; try discriminate; try lia; eauto.
Qed.

(** X9. In every session of a new assistant the record matches the step:
    before a question is answered its field still has the initial value
    ([None] or 0), and after it the field is set (a mood, a sleep number) or
    a total that is not negative. *)
Theorem sessions_are_settled (texts : list string) :
  settled (run init texts).
Proof.
  assert (G : forall self, settled self -> settled (run self texts)).
  { induction texts as [|t ts IH]; intros self S; [exact S|].
    rewrite run_cons. apply IH, settled_on_message, S. }
  apply G. repeat split.
Qed.

(** X10. No session gets past a step without an utterance for it: after
    [n] utterances the step is at most [n] places further on, so the done
    step is never reached with fewer than four. *)
Theorem run_rank_bound (self : Assistant) (texts : list string) :
  (rank (current_step (run self texts))
   <= rank (current_step self) + List.length texts)%nat.
Proof.
  revert self. induction texts as [|t ts IH]; intros self; [cbn; lia|].
  rewrite run_cons. specialize (IH (fst (on_message self t))).
  pose proof (on_message_rank self t). cbn [List.length]. lia.
Qed.

Lemma number_read (text : string) :
  plain text = true -> join_filter isdecimal text <> "" ->
  over_limit (join_filter isdecimal text) = false ->
  extract_number (lower text) = Ok (Some (decimal_value 0 text)).
Proof.
  intros P D L. rewrite (extract_number_lower_plain text P).
  destruct (join_filter isdecimal text); [contradiction|]. now rewrite L.
Qed.

(** X11. The four calls compose into one filled-in record: a mood text that
    is not blank, followed by three texts that each have a decimal digit, no
    superscript and no more than 4300 decimal digits, take a new assistant
    to the done step with the mood label, and with the three numbers written
    by the digits of the second, third and fourth text as water, sleep and
    steps. *)
Theorem full_session (m w s p : string) :
  blank m = false ->
  plain w = true -> join_filter isdecimal w <> "" ->
  over_limit (join_filter isdecimal w) = false ->
  plain s = true -> join_filter isdecimal s <> "" ->
  over_limit (join_filter isdecimal s) = false ->
  plain p = true -> join_filter isdecimal p <> "" ->
  over_limit (join_filter isdecimal p) = false ->
  run init [m; w; s; p]
  = {| state := {| mood := Some (strip (replace "feeling" "" (lower m)));
                   water := decimal_value 0 w;
                   sleep := Some (decimal_value 0 s);
                   steps := decimal_value 0 p |};
       current_step := Done |}.
Proof.
  intros Bm Pw Dw Lw Ps Ds Ls Pp Dp Lp.
  unfold run; cbn [fold_left].
  change init with {| state := state init; current_step := Mood |}.
  rewrite on_message_mood, Bm. cbn [fst].
  unfold on_message at 3; cbn [current_step state];
    rewrite (number_read w Pw Dw Lw); cbn [fst].
  unfold on_message at 2; cbn [current_step state];
    rewrite (number_read s Ps Ds Ls); cbn [fst].
  unfold on_message at 1; cbn [current_step state];
    rewrite (number_read p Pp Dp Lp); cbn [fst].
  reflexivity.
Qed.

Lemma full_session_witness :
  run init ["a bit tired"; "1.5 litres"; "7h"; "about 4,200"]
  = {| state := {| mood := Some "a bit tired"; water := 15;
                   sleep := Some 7; steps := 4200 |};
       current_step := Done |}.
Proof.
  apply (full_session "a bit tired" "1.5 litres" "7h" "about 4,200");
    first [reflexivity | discriminate].
Defined.

(** ** The mood label *)

Lemma lower_char_idem (c : ascii) : lower_char (lower_char c) = lower_char c.
Proof. destruct c as [[] [] [] [] [] [] [] []]; reflexivity. Qed.

Lemma lower_idem (s : string) : lower (lower s) = lower s.
Proof.
  induction s as [|c s IH]; simpl; [reflexivity|].
  now rewrite lower_char_idem, IH.
Qed.

Lemma all_chars_lower (s : string) :
  all_chars (fun c => Ascii.eqb (lower_char c) c) (lower s) = true.
Proof.
  induction s as [|c s IH]; simpl; [reflexivity|].
  rewrite lower_char_idem, Ascii.eqb_refl. exact IH.
Qed.

Lemma all_chars_lower_fixed (s : string) :
  all_chars (fun c => Ascii.eqb (lower_char c) c) s = true -> lower s = s.
Proof.
  induction s as [|c s IH]; simpl; [reflexivity|].
  intros H; apply andb_true_iff in H as [Hc Hs].
  apply Ascii.eqb_eq in Hc. now rewrite Hc, (IH Hs).
Qed.

Section Deleting.

(** [lstrip], [rstrip] and [replace] with an empty replacement only delete
    characters: what holds of every character of the text holds of every
    character of the result. *)
Variable p : ascii -> bool.

Lemma all_chars_lstrip (s : string) :
  all_chars p s = true -> all_chars p (lstrip s) = true.
Proof.
  induction s as [|c s IH]; simpl; [reflexivity|].
  intros H. destruct (isspace c); [|exact H].
  apply andb_true_iff in H as [_ Hs]. exact (IH Hs).
Qed.

Lemma all_chars_rstrip (s : string) :
  all_chars p s = true -> all_chars p (rstrip s) = true.
Proof.
  induction s as [|c s IH]; simpl; [reflexivity|].
  intros H; apply andb_true_iff in H as [Hc Hs]. specialize (IH Hs).
  destruct (rstrip s) as [|d r].
  - destruct (isspace c); simpl; [reflexivity | now rewrite Hc].
  - cbn [all_chars] in IH |- *. now rewrite Hc, IH.
Qed.

Lemma all_chars_replace (old s : string) :
  forall skip, all_chars p s = true ->
  all_chars p (replace_from skip old "" s) = true.
Proof.
  induction s as [|c s IH]; intros skip H; [reflexivity|].
  cbn [all_chars] in H; apply andb_true_iff in H as [Hc Hs].
  cbn [replace_from]. destruct skip as [|k]; [|exact (IH k Hs)].
  destruct (startswith old (String c s)).
  - cbn [append]. exact (IH _ Hs).
  - cbn [all_chars]. now rewrite Hc, (IH O Hs).
Qed.

End Deleting.

Lemma starts_blank_strip (s : string) : starts_blank (strip s) = false.
Proof.
  unfold strip.
  destruct (lstrip_head s) as [[_ L]|[_ (c & r & L & E)]]; rewrite L;
    [reflexivity|].
  cbn [rstrip]. destruct (rstrip r); [rewrite E|]; exact E.
Qed.

Lemma ends_blank_rstrip (s : string) : ends_blank (rstrip s) = false.
Proof.
  induction s as [|c s IH]; [reflexivity|].
  cbn [rstrip]. destruct (rstrip s) as [|d r].
  - destruct (isspace c) eqn:E; [reflexivity | exact E].
  - exact IH.
Qed.

(** X12. The mood that a call stores is clean: it neither begins nor ends
    with white space, and it has no upper-case letter (lower-casing it
    changes nothing). *)
Theorem stored_mood_is_clean (st : State) (text : string) :
  blank text = false ->
  exists label,
    mood (state (fst (on_message {| state := st; current_step := Mood |} text)))
    = Some label
    /\ starts_blank label = false
    /\ ends_blank label = false
    /\ lower label = label.
Proof.
  intros B. rewrite on_message_mood, B. cbv zeta. cbn [fst state mood set_mood].
  eexists; split; [reflexivity|].
  split; [apply starts_blank_strip|].
  split; [apply ends_blank_rstrip|].
  apply all_chars_lower_fixed.
  apply all_chars_rstrip, all_chars_lstrip, all_chars_replace, all_chars_lower.
Qed.

Lemma stored_mood_is_clean_witness :
  blank "  Feeling GREAT today  " = false
  /\ exists label,
       mood (state (fst (on_message init "  Feeling GREAT today  "))) = Some label
       /\ starts_blank label = false
       /\ ends_blank label = false
       /\ lower label = label.
Proof.
  split; [reflexivity|].
  apply (stored_mood_is_clean (state init) "  Feeling GREAT today  ");
    reflexivity.
Defined.

Lemma replace_absent (old new s : string) :
  contains old s = false -> replace old new s = s.
Proof.
  unfold replace. induction s as [|c s IH]; [reflexivity|].
  intros H. cbn [contains] in H. apply orb_false_iff in H as [H1 H2].
  cbn [replace_from]. now rewrite H1, (IH H2).
Qed.

(** X13. When the utterance, in lower case, does not contain "feeling", the
    mood stored for a text that is not blank is the whole utterance in lower
    case without the white space around it; the three numbers stay as they
    were, the step moves on to water, and the response quotes the mood. *)
Theorem mood_without_feeling (st : State) (text : string) :
  blank text = false ->
  contains "feeling" (lower text) = false ->
  on_message {| state := st; current_step := Mood |} text
  = ({| state := {| mood := Some (strip (lower text)); water := water st;
                    sleep := sleep st; steps := steps st |};
        current_step := Water |},
     Ok ("Got it. You're feeling " ++ strip (lower text)
         ++ ". How much water have you had today?")).
Proof.
  intros B F. rewrite on_message_mood, B. cbv zeta.
  now rewrite (replace_absent "feeling" "" (lower text) F).
Qed.

Lemma mood_without_feeling_witness :
  blank " Pretty Good " = false
  /\ contains "feeling" (lower " Pretty Good ") = false
  /\ on_message init " Pretty Good "
     = ({| state := {| mood := Some "pretty good"; water := 0; sleep := None;
                       steps := 0 |};
           current_step := Water |},
        Ok "Got it. You're feeling pretty good. How much water have you had today?").
Proof.
  split; [reflexivity|]. split; [reflexivity|].
  apply (mood_without_feeling (state init) " Pretty Good "); reflexivity.
Defined.

(** X14. The handler does not tell upper case from lower case: an utterance
    and the same utterance in lower case get the same response and leave the
    same assistant, in every step. *)
Theorem on_message_ignores_case (self : Assistant) (text : string) :
  on_message self (lower text) = on_message self text.
Proof. unfold on_message. now rewrite lower_idem. Qed.
